(** * The screen compositor of the [ov] pager (package [oviewer], draw.go)

    A shallow embedding of [Draw] and of the helpers it is built from
    ([ResetScreen], [reverseContents], [wrapContents], [noWrapContents],
    [headerStyle], [statusDraw], [setContentString]) together with the
    properties the design document states about them.

    Conventions.
    - A Go [int] is a 64-bit two's complement integer; it is a [Z] here and
      every addition, subtraction and multiplication of the source is
      followed by [wrap].
    - A slice is a [list]; indexing outside [0, len) panics.
    - A Go [map[int]int] is a [gmap Z Z]; reading an absent key gives 0.
    - A function that can panic or that contains a loop whose exit is not
      a plain counter returns a [res]: [Ok v], [Panic], or [Timeout] when
      the fuel given to the loop ran out. *)

From Stdlib Require Import ZArith Lia Bool Ascii String DecimalString.
From stdpp Require Import base tactics option list numbers gmap.

Local Open Scope Z_scope.

(** ** Go integers *)

Module GoInt.

Definition int_min : Z := - 2 ^ 63.
Definition int_max : Z := 2 ^ 63 - 1.

Definition is_int (z : Z) : Prop := int_min <= z <= int_max.

Definition wrap (z : Z) : Z := (z + 2 ^ 63) mod 2 ^ 64 - 2 ^ 63.

Definition add (a b : Z) : Z := wrap (a + b).
Definition sub (a b : Z) : Z := wrap (a - b).
Definition mul (a b : Z) : Z := wrap (a * b).

(** [a / b] and [a % b] of Go truncate toward zero. *)
Definition quot (a b : Z) : Z := wrap (Z.quot a b).
Definition rem (a b : Z) : Z := Z.rem a b.

End GoInt.

Infix "+i" := GoInt.add (at level 50, left associativity).
Infix "-i" := GoInt.sub (at level 50, left associativity).
Infix "*i" := GoInt.mul (at level 40, left associativity).

(** ** Results of code that may panic or run out of fuel *)

Inductive res (A : Type) : Type :=
| Ok (a : A)
| Panic
| Timeout.

Arguments Ok {A} a.
Arguments Panic {A}.
Arguments Timeout {A}.

#[global] Instance res_ret : MRet res := fun A a => Ok a.

#[global] Instance res_bind : MBind res := fun A B k m =>
  match m with
  | Ok a => k a
  | Panic => Panic
  | Timeout => Timeout
  end.

(** ** Slices and maps *)

Definition len {A : Type} (l : list A) : Z := Z.of_nat (length l).

(** [l[i]]: [None] stands for the index-out-of-range panic. *)
Definition index {A : Type} (l : list A) (i : Z) : option A :=
  if i <? 0 then None else l !! Z.to_nat i.

(** [m[k]] on a [map[int]int]. *)
Definition mapGet (m : gmap Z Z) (k : Z) : Z := default 0 (m !! k).

(** ** Styles (package tcell)

    A [tcell.Style] packs a foreground colour, a background colour and the
    attribute bits.  Each method used by draw.go returns a copy of the style
    with one component replaced: [Reverse on] sets the reverse attribute to
    [on] (it does not flip it), and likewise [Bold]. *)

Module tcell.

Inductive Color : Type :=
| ColorDefault
| ColorGray
| ColorRGB (n : Z).

Record Style : Type := mkStyle {
  fg : Color;
  bg : Color;
  bold : bool;
  blink : bool;
  reverse : bool;
  underline : bool;
  dim : bool
}.

Definition StyleDefault : Style :=
  mkStyle ColorDefault ColorDefault false false false false false.

Definition Foreground (s : Style) (c : Color) : Style :=
  mkStyle c (bg s) (bold s) (blink s) (reverse s) (underline s) (dim s).

Definition Background (s : Style) (c : Color) : Style :=
  mkStyle (fg s) c (bold s) (blink s) (reverse s) (underline s) (dim s).

Definition Bold (s : Style) (on : bool) : Style :=
  mkStyle (fg s) (bg s) on (blink s) (reverse s) (underline s) (dim s).

Definition Reverse (s : Style) (on : bool) : Style :=
  mkStyle (fg s) (bg s) (bold s) (blink s) on (underline s) (dim s).

Definition Normal (s : Style) : Style :=
  mkStyle (fg s) (bg s) false false false false false.

(** [Decompose] gives the foreground, the background and the attributes. *)
Definition Decompose (s : Style) : Color * Color * (bool * bool * bool * bool * bool) :=
  (fg s, bg s, (bold s, blink s, reverse s, underline s, dim s)).

End tcell.
Import tcell.

(** ** Content cells and line contents *)

Definition rune : Type := Z.

Record content : Type := mkContent {
  width : Z;
  style : Style;
  mainc : rune;
  combc : list rune
}.

Definition setStyle (c : content) (s : Style) : content :=
  mkContent (width c) s (mainc c) (combc c).

Record lineContents : Type := mkLineContents {
  contents : list content;
  byteMap : gmap Z Z
}.

(** ** reverseContents

    [for n := lc.byteMap[start]; n < lc.byteMap[end]; n++] runs
    [byteMap[end] - byteMap[start]] times (none when that is negative); [n]
    stays below [byteMap[end]], so [n++] never overflows.  The cells live in
    the array shared with the caller: the loop returns the array as the call
    leaves it and whether it ran to completion ([false]: the index
    [lc.contents[n]] was out of range and the call panicked there). *)

Fixpoint reverseLoop (k : nat) (n : Z) (cs : list content) : list content * bool :=
  match k with
  | O => (cs, true)
  | S k' =>
      match index cs n with
      | Some c =>
          reverseLoop k' (n + 1)
            (<[Z.to_nat n := setStyle c (Reverse (style c) true)]> cs)
      | None => (cs, false)
      end
  end.

Definition reverseContents (lc : lineContents) (start end_ : Z) : lineContents * bool :=
  let lo := mapGet (byteMap lc) start in
  let hi := mapGet (byteMap lc) end_ in
  let '(cs, ok) := reverseLoop (Z.to_nat (hi - lo)) lo (contents lc) in
  (mkLineContents cs (byteMap lc), ok).

(** The same call as a step of a larger computation. *)
Definition reverseContentsR (lc : lineContents) (start end_ : Z) : res lineContents :=
  let '(lc', ok) := reverseContents lc start end_ in
  if ok then Ok lc' else Panic.

(** ** Counted loops

    [for i := lo; i < hi; i++ { body }] where the body neither assigns [i]
    nor leaves the loop. *)

Fixpoint forRange {S : Type} (k : nat) (i : Z) (body : Z -> S -> S) (s : S) : S :=
  match k with
  | O => s
  | S k' => forRange k' (i + 1) body (body i s)
  end.

Definition forUp {S : Type} (lo hi : Z) (body : Z -> S -> S) (s : S) : S :=
  forRange (Z.to_nat (hi - lo)) lo body s.

(** ** fmt.Sprintf, for the verbs draw.go uses: [%d], [%s], [%*d] *)

Inductive fmtArg : Type :=
| IntArg (z : Z)
| StrArg (s : string).

Definition itoa (z : Z) : string := NilZero.string_of_int (Z.to_int z).

Fixpoint spaces (n : nat) : string :=
  match n with
  | O => EmptyString
  | S n' => String " " (spaces n')
  end.

(** [%*d]: right-justified in [w] columns, left-justified for negative [w]. *)
Definition padInt (w z : Z) : string :=
  let s := itoa z in
  let n := (Z.to_nat (Z.abs w) - String.length s)%nat in
  if w <? 0 then (s ++ spaces n)%string else (spaces n ++ s)%string.

Fixpoint Sprintf (format : string) (args : list fmtArg) : string :=
  match format with
  | EmptyString => EmptyString
  | String "%" (String "d" rest) =>
      match args with
      | IntArg z :: args' => (itoa z ++ Sprintf rest args')%string
      | StrArg s :: args' => ("%!d(string=" ++ s ++ ")" ++ Sprintf rest args')%string
      | [] => ("%!d(MISSING)" ++ Sprintf rest [])%string
      end
  | String "%" (String "s" rest) =>
      match args with
      | StrArg s :: args' => (s ++ Sprintf rest args')%string
      | IntArg z :: args' => ("%!s(int=" ++ itoa z ++ ")" ++ Sprintf rest args')%string
      | [] => ("%!s(MISSING)" ++ Sprintf rest [])%string
      end
  | String "%" (String "*" (String "d" rest)) =>
      match args with
      | IntArg w :: IntArg z :: args' => (padInt w z ++ Sprintf rest args')%string
      | IntArg w :: StrArg s :: args' =>
          ("%!d(string=" ++ s ++ ")" ++ Sprintf rest args')%string
      | StrArg _ :: a :: args' => ("%!(BADWIDTH)" ++ Sprintf rest (a :: args'))%string
      | _ => ("%!(BADWIDTH)%!d(MISSING)" ++ Sprintf rest [])%string
      end
  | String c rest => String c (Sprintf rest args)
  end.

Definition strlen (s : string) : Z := Z.of_nat (String.length s).

(** ** The screen (the cell sink)

    The terminal backend is outside the pager.  The screen is what the pager
    told it: every [SetContent] call, newest first, the cursor position of
    the last [ShowCursor], and how many frames [Show] presented. *)

Record Write : Type := mkWrite {
  wx : Z;
  wy : Z;
  wmainc : rune;
  wcombc : list rune;
  wstyle : Style
}.

Record Screen : Type := mkScreen {
  cells : list Write;
  cursor : option (Z * Z);
  shown : nat
}.

Definition SetContent (scr : Screen) (x y : Z) (m : rune) (c : list rune) (st : Style) : Screen :=
  mkScreen (mkWrite x y m c st :: cells scr) (cursor scr) (shown scr).

Definition ShowCursor (scr : Screen) (x y : Z) : Screen :=
  mkScreen (cells scr) (Some (x, y)) (shown scr).

Definition ScreenShow (scr : Screen) : Screen :=
  mkScreen (cells scr) (cursor scr) (S (shown scr)).

Definition atCell (x y : Z) (w : Write) : bool := (wx w =? x) && (wy w =? y).

(** [GetContent] reads back what was last put in a cell: a blank for a cell
    never set, and a blank in place of a control rune. *)
Definition GetContent (scr : Screen) (x y : Z) : rune * list rune * Style :=
  match List.find (atCell x y) (cells scr) with
  | Some w => (if wmainc w <? 32 then 32 else wmainc w, wcombc w, wstyle w)
  | None => (32, [], StyleDefault)
  end.

(** ** Document and view state *)

Definition Regexp : Type := string.

Inductive InputMode : Type :=
| Normal
| Search
| Previous
| Goline
| HeaderMode.

Definition isNormal (md : InputMode) : bool :=
  match md with Normal => true | _ => false end.

Record Input : Type := mkInput {
  mode : InputMode;
  value : string;
  cursorX : Z;
  reg : option Regexp;
  (* what [input.EventInput.Prompt()] returns *)
  Prompt : string
}.

Record Model : Type := mkModel {
  buffer : list string;
  eof : bool;
  FileName : string;
  lineNum : Z;
  (* field [x]: the horizontal scroll offset *)
  mx : Z;
  yy : Z;
  vWidth : Z;
  vHight : Z
}.

Record Root : Type := mkRoot {
  model : Model;
  screen : Screen;
  Header : Z;
  TabWidth : Z;
  ColumnMode : bool;
  ColumnDelimiter : string;
  columnNum : Z;
  WrapMode : bool;
  input : Input;
  LineNumMode : bool;
  startX : Z;
  minStartX : Z;
  AlternateRows : bool;
  bottomPos : Z;
  statusPos : Z;
  message : string;
  CaseSensitive : bool;
  Debug : bool
}.

Definition setLineNumM (m : Model) (n : Z) : Model :=
  mkModel (buffer m) (eof m) (FileName m) n (mx m) (yy m) (vWidth m) (vHight m).

Definition setModel (root : Root) (m : Model) : Root :=
  mkRoot m (screen root) (Header root) (TabWidth root) (ColumnMode root)
    (ColumnDelimiter root) (columnNum root) (WrapMode root) (input root)
    (LineNumMode root) (startX root) (minStartX root) (AlternateRows root)
    (bottomPos root) (statusPos root) (message root) (CaseSensitive root)
    (Debug root).

Definition setLineNum (root : Root) (n : Z) : Root :=
  setModel root (setLineNumM (model root) n).

Definition setScreen (root : Root) (scr : Screen) : Root :=
  mkRoot (model root) scr (Header root) (TabWidth root) (ColumnMode root)
    (ColumnDelimiter root) (columnNum root) (WrapMode root) (input root)
    (LineNumMode root) (startX root) (minStartX root) (AlternateRows root)
    (bottomPos root) (statusPos root) (message root) (CaseSensitive root)
    (Debug root).

Definition setBottomPos (root : Root) (n : Z) : Root :=
  mkRoot (model root) (screen root) (Header root) (TabWidth root) (ColumnMode root)
    (ColumnDelimiter root) (columnNum root) (WrapMode root) (input root)
    (LineNumMode root) (startX root) (minStartX root) (AlternateRows root)
    n (statusPos root) (message root) (CaseSensitive root)
    (Debug root).

(** ** Collaborators

    The parts of package [oviewer] that draw.go calls and that live in other
    files: the layout engine, the position finders, the scroll-limit
    computation and the theme constants.  The compositor is verified for
    every choice of them. *)

Record Collab : Type := mkCollab {
  (* [strToContents(str, tabWidth)]: the cells of a string *)
  strToContents : string -> Z -> list content;
  (* the layout of one raw line: its cells and its byte-offset map *)
  layout : string -> Z -> lineContents;
  (* [root.bottomLineNum(num)] *)
  bottomLineNum : Root -> Z -> Z;
  (* [root.HeaderLen()]: the number of screen rows the header takes *)
  HeaderLen : Root -> Z;
  (* [rangePosition(line, delimiter, n)]: the byte span of field [n] *)
  rangePosition : string -> string -> Z -> Z * Z;
  (* [searchPosition(line, re)]: the byte spans of the matches *)
  searchPosition : string -> Regexp -> list (Z * Z);
  HeaderStyle : Style;
  ColorAlternate : Color
}.

(** Modelled from the spec: the number of lines appended so far
    ([lineCount()] of the chunk store). *)
Definition BufEndNum (m : Model) : Z := len (buffer m).

(** Modelled from the spec: whether the document has signalled end of input. *)
Definition BufEOF (m : Model) : bool := eof m.

(** Modelled from the spec: [line(n)], whose callers take a plain string: a
    line number outside the buffer reads as the empty line. *)
Definition GetLine (m : Model) (n : Z) : string := default EmptyString (index (buffer m) n).

(** Modelled from the spec: the contents of logical line [n] are the layout
    of its raw bytes, and the request fails with OutOfRange when [n] is not
    the number of a buffered line.  [None] is that failure. *)
Definition lineToContents (E : Collab) (m : Model) (n : Z) (tabWidth : Z) : option lineContents :=
  line ← index (buffer m) n; Some (layout E line tabWidth).

(** ** Drawing helpers *)

Section Compositor.

Context (E : Collab).

Definition blank : content := mkContent 1 (tcell.Normal StyleDefault) 32 [].

(** ResetScreen initializes the screen with a blank. *)
Definition ResetScreen (root : Root) : Root :=
  let space := blank in
  setScreen root
    (forUp 0 (vHight (model root)) (fun y scr =>
       forUp 0 (vWidth (model root)) (fun x scr =>
         SetContent scr x y (mainc space) (combc space) (style space)) scr)
       (screen root)).

(** wrapContents wraps and draws the contents and returns the next drawing
    position: the pair [(lX, lY)], with the screen the cells were put on.
    [x] is the loop variable of [for x := 0; ; x++]. *)
Fixpoint wrapLoop (fuel : nat) (root : Root) (y lX lY : Z) (cs : list content)
    (x : Z) (scr : Screen) : res (Z * Z * Screen) :=
  match fuel with
  | O => Timeout
  | S fuel' =>
      if len cs <=? lX +i x then
        (* EOL *)
        Ok (0, lY +i 1, scr)
      else
        match index cs (lX +i x) with
        | None => Panic
        | Some c =>
            if vWidth (model root) <? x +i width c +i startX root then
              (* next line *)
              Ok (lX +i x, lY, scr)
            else
              wrapLoop fuel' root y lX lY cs (x +i 1)
                (SetContent scr (x +i startX root) y (mainc c) (combc c) (style c))
        end
  end.

Definition wrapContents (fuel : nat) (root : Root) (y lX lY : Z) (cs : list content)
    (scr : Screen) : res (Z * Z * Screen) :=
  wrapLoop fuel root y lX lY cs 0 scr.

(** noWrapContents draws contents without wrapping and returns the next
    drawing position. *)
Fixpoint noWrapLoop (fuel : nat) (root : Root) (y lX : Z) (cs : list content)
    (x : Z) (scr : Screen) : res Screen :=
  match fuel with
  | O => Timeout
  | S fuel' =>
      if x +i startX root <? vWidth (model root) then
        if lX +i x <? 0 then
          noWrapLoop fuel' root y lX cs (x +i 1) scr
        else if len cs <=? lX +i x then
          Ok scr
        else
          match index cs (lX +i x) with
          | None => Panic
          | Some c =>
              noWrapLoop fuel' root y lX cs (x +i 1)
                (SetContent scr (x +i startX root) y (mainc c) (combc c) (style c))
          end
      else Ok scr
  end.

Definition noWrapContents (fuel : nat) (root : Root) (y lX lY : Z) (cs : list content)
    (scr : Screen) : res (Z * Z * Screen) :=
  let lX := if lX <? minStartX root then minStartX root else lX in
  scr' ← noWrapLoop fuel root y lX cs 0 scr;
  Ok (lX, lY +i 1, scr').

(** headerStyle applies the style of the header: every cell of the slice
    gets [HeaderStyle]. *)
Definition headerStyle (cs : list content) : list content :=
  (fun c => setStyle c (HeaderStyle E)) <$> cs.

(** setContentString is a helper function that draws a string with
    setContent; [x] is the index of [range contents]. *)
Fixpoint setContentStringFrom (x vx vy : Z) (cs : list content) (scr : Screen) : Screen :=
  match cs with
  | [] => scr
  | c :: cs' =>
      setContentStringFrom (x + 1) vx vy cs'
        (SetContent scr (vx +i x) vy (mainc c) (combc c) (style c))
  end.

Definition setContentString (vx vy : Z) (cs : list content) (scr : Screen) : Screen :=
  setContentStringFrom 0 vx vy cs scr.

(** ** statusDraw draws a status line *)

(** The left segment, with the cursor. *)
Definition statusLeft (root : Root) : Screen :=
  let m := model root in
  let scr :=
    forUp 0 (vWidth m) (fun x scr => SetContent scr x (statusPos root) 0 [] StyleDefault)
      (screen root) in
  let leftStatus := Sprintf "%s:%s" [StrArg (FileName m); StrArg (message root)] in
  let leftContents := strToContents E leftStatus (-1) in
  let caseSensitive := if CaseSensitive root then "(Aa)"%string else EmptyString in
  let inp := input root in
  let '(leftContents, scr) :=
    if negb (isNormal (mode inp)) then
      let p := (caseSensitive ++ Prompt inp)%string in
      let leftStatus := (p ++ value inp)%string in
      (strToContents E leftStatus (-1),
       ShowCursor scr (strlen p +i cursorX inp) (statusPos root))
    else
      let leftContents := (fun c => setStyle c (Reverse (style c) true)) <$> leftContents in
      (leftContents, ShowCursor scr (len leftContents) (statusPos root)) in
  setContentString 0 (statusPos root) leftContents scr.

(** The text of the right segment. *)
Definition rightStatus (root : Root) : string :=
  let m := model root in
  let next := if negb (BufEOF m) then "..."%string else EmptyString in
  Sprintf "(%d/%d%s)" [IntArg (lineNum m); IntArg (BufEndNum m); StrArg next].

Definition statusRight (root : Root) (scr : Screen) : Screen :=
  let rightStatus := rightStatus root in
  let rightContents := strToContents E rightStatus (-1) in
  setContentString (vWidth (model root) -i strlen rightStatus) (statusPos root)
    rightContents scr.

Definition newline : string := String (ascii_of_nat 10) EmptyString.

Definition statusDebug (root : Root) (scr : Screen) : Screen :=
  if Debug root then
    let debugMsg :=
      Sprintf ("header:%d(%d) body:%d-%d " ++ newline)
        [IntArg (Header root); IntArg (HeaderLen E root);
         IntArg (lineNum (model root)); IntArg (bottomPos root)] in
    let c := strToContents E debugMsg 0 in
    setContentString (GoInt.quot (vWidth (model root)) 2) (statusPos root) c scr
  else scr.

Definition statusDraw (root : Root) : Root :=
  setScreen root (statusDebug root (statusRight root (statusLeft root))).

(** [root.Show()] presents the frame. *)
Definition RootShow (root : Root) : Root :=
  setScreen root (ScreenShow (screen root)).

(** ** Draw is the main routine that draws the screen *)

(** The anchor [m.lineNum] against the scroll limit. *)
Definition bottomOf (root : Root) : Z :=
  bottomLineNum E root (BufEndNum (model root)) -i Header root.

Definition anchorClamp (root : Root) : Root :=
  let bottom := bottomOf root in
  let root := if bottom +i 1 <? lineNum (model root)
              then setLineNum root (bottom +i 1) else root in
  if lineNum (model root) <? 0 then setLineNum root 0 else root.

(** The column highlight, shared by header and body rows. *)
Definition columnHighlight (root : Root) (line : string) (lc : lineContents) : res lineContents :=
  if ColumnMode root then
    let '(start, end_) := rangePosition E line (ColumnDelimiter root) (columnNum root) in
    reverseContentsR lc start end_
  else Ok lc.

(** Header: [for hy := 0; lY < root.Header; hy++].  [continue] goes to
    [hy++] and leaves [lX] and [lY] as they are.  [contents] and
    [lc.contents] are the same array, so the cells drawn are the ones
    [headerStyle] and [reverseContents] wrote. *)
Fixpoint headerLoop (fuel : nat) (root : Root) (hy lX lY : Z) (scr : Screen)
    : res (Z * Z * Screen) :=
  match fuel with
  | O => Timeout
  | S fuel' =>
      let m := model root in
      if lY <? Header root then
        let line := GetLine m lY in
        match lineToContents E m lY (TabWidth root) with
        | None =>
            (* EOF *)
            headerLoop fuel' root (hy +i 1) lX lY scr
        | Some lc =>
            let lc := mkLineContents (headerStyle (contents lc)) (byteMap lc) in
            lc ← columnHighlight root line lc;
            '(lX, lY, scr) ←
              (if WrapMode root
               then wrapContents fuel' root hy lX lY (contents lc) scr
               else noWrapContents fuel' root hy (mx m) lY (contents lc) scr);
            headerLoop fuel' root (hy +i 1) lX lY scr
        end
      else Ok (lX, lY, scr)
  end.

(** The search highlight: one [reverseContents] per match. *)
Fixpoint searchHighlight (poss : list (Z * Z)) (lc : lineContents) : res lineContents :=
  match poss with
  | [] => Ok lc
  | r :: poss' => lc ← reverseContentsR lc r.1 r.2; searchHighlight poss' lc
  end.

(** The end-of-document marker of a body row. *)
Definition eofMark (y : Z) (scr : Screen) : Screen :=
  SetContent scr 0 y 126 [] (Foreground StyleDefault ColorGray).

(** The gutter of line-number mode. *)
Definition lineNumGutter (root : Root) (y lY : Z) (scr : Screen) : Screen :=
  if LineNumMode root then
    let lineNum :=
      strToContents E
        (Sprintf "%*d" [IntArg (startX root -i 1);
                        IntArg (lineNum (model root) +i lY -i Header root +i 1)])
        (TabWidth root) in
    let lineNum := (fun c => setStyle c (Bold StyleDefault true)) <$> lineNum in
    setContentString 0 y lineNum scr
  else scr.

(** The alternate background color of a body row. *)
Definition alternateRow (root : Root) (y lY : Z) (scr : Screen) : Screen :=
  let m := model root in
  let normalBgColor := (Decompose StyleDefault).1.2 in
  if AlternateRows root then
    let bgColor :=
      if GoInt.rem (lineNum m +i lY) 2 =? 1 then ColorAlternate E else normalBgColor in
    forUp 0 (vWidth m) (fun x scr =>
      let '(r, c, style) := GetContent scr x y in
      SetContent scr x y r c (Background style bgColor)) scr
  else scr.

(** One pass of the body loop, for screen row [y]. *)
Definition bodyRow (fuel : nat) (root : Root) (y lX lY : Z) (scr : Screen)
    : res (Z * Z * Screen) :=
  let m := model root in
  match lineToContents E m (lineNum m +i lY) (TabWidth root) with
  | None =>
      (* EOF *)
      Ok (lX, lY, eofMark y scr)
  | Some lc =>
      let line := GetLine m (lineNum m +i lY) in
      let lc :=
        mkLineContents ((fun c => setStyle c (Reverse (style c) false)) <$> contents lc)
          (byteMap lc) in
      lc ← match reg (input root) with
           | Some re => searchHighlight (searchPosition E line re) lc
           | None => Ok lc
           end;
      lc ← columnHighlight root line lc;
      let scr := lineNumGutter root y lY scr in
      '(lX, nextY, scr) ←
        (if WrapMode root
         then wrapContents fuel root y lX lY (contents lc) scr
         else noWrapContents fuel root y (mx m) lY (contents lc) scr);
      let scr := alternateRow root y lY scr in
      Ok (lX, nextY, scr)
  end.

(** Body: [for y := root.HeaderLen(); y < m.vHight; y++], [k] rows to go. *)
Fixpoint bodyLoop (fuel : nat) (root : Root) (k : nat) (y lX lY : Z) (scr : Screen)
    : res (Z * Z * Screen) :=
  match k with
  | O => Ok (lX, lY, scr)
  | S k' =>
      '(lX, lY, scr) ← bodyRow fuel root y lX lY scr;
      bodyLoop fuel root k' (y + 1) lX lY scr
  end.

Definition isEmpty (root : Root) : bool :=
  (BufEndNum (model root) =? 0) || (vHight (model root) =? 0).

Definition Draw (fuel : nat) (root : Root) : res Root :=
  if isEmpty root then
    let root := setLineNum root 0 in
    Ok (RootShow (statusDraw root))
  else
    let root := ResetScreen root in
    let root := anchorClamp root in
    let m := model root in
    (* Header *)
    '(lX, lY, scr) ← headerLoop fuel root 0 0 0 (screen root);
    (* Body *)
    let lX := yy m *i vWidth m in
    let top := HeaderLen E root in
    '(lX, lY, scr) ← bodyLoop fuel root (Z.to_nat (vHight m - top)) top lX lY scr;
    let root := setScreen root scr in
    let root :=
      if 0 <? lY then setBottomPos root (lineNum m +i lY -i 1)
      else setBottomPos root (lineNum m +i 1) in
    Ok (RootShow (statusDraw root)).

End Compositor.

(** ** What the design document says of line contents

    [byteMap] covers every byte offset of a line of [n] bytes, the one past
    the end included, never decreases, maps into the cells, and maps the
    offset [n] to [len(contents)]. *)

Definition coversLine (lc : lineContents) (n : Z) : Prop :=
  (forall i, 0 <= i <= n ->
     exists c, byteMap lc !! i = Some c /\ 0 <= c <= len (contents lc)) /\
  (forall i j, 0 <= i <= j -> j <= n ->
     mapGet (byteMap lc) i <= mapGet (byteMap lc) j) /\
  mapGet (byteMap lc) n = len (contents lc).

(** The cell range [lc.byteMap[start], lc.byteMap[end_]) of a highlight. *)
Definition inSpan (lc : lineContents) (start end_ : Z) (i : nat) : bool :=
  (mapGet (byteMap lc) start <=? Z.of_nat i) && (Z.of_nat i <? mapGet (byteMap lc) end_).

Definition reversed (c : content) : content := setStyle c (Reverse (style c) true).

(** The cells no-wrap drawing puts on row [y] for scroll offset [lX]: column
    [startX + k] shows cell [lX + k], for the [k] that name a cell. *)
Definition clipCell (root : Root) (y lX : Z) (cs : list content) (k : Z) : option Write :=
  c ← index cs (lX + k);
  Some (mkWrite (k + startX root) y (mainc c) (combc c) (style c)).

Definition clipRow (root : Root) (y lX : Z) (cs : list content) : list Write :=
  omap (clipCell root y lX cs) (seqZ 0 (vWidth (model root) - startX root)).

(** Putting a list of writes on the screen, the first of the list first. *)
Definition putAll (ws : list Write) (scr : Screen) : Screen :=
  mkScreen (rev ws ++ cells scr) (cursor scr) (shown scr).







(** ** Sample collaborators and documents

    Lines of printable ASCII without tabs: one cell of width 1 per byte, the
    byte offset [i] mapped to the cell [i]. *)

Module Sample.

Definition cellOf (a : ascii) : content :=
  mkContent 1 StyleDefault (Z.of_nat (nat_of_ascii a)) [].

Definition strToContents (s : string) (tabWidth : Z) : list content :=
  cellOf <$> list_ascii_of_string s.

Definition identityMap (n : nat) : gmap Z Z :=
  list_to_map ((fun i => (i, i)) <$> seqZ 0 (Z.of_nat n + 1)).

Definition layout (s : string) (tabWidth : Z) : lineContents :=
  mkLineContents (strToContents s tabWidth) (identityMap (String.length s)).

(** The highest anchor that still fills the viewport; 0 for a document that
    fits the viewport. *)
Definition bottomLineNum (root : Root) (num : Z) : Z :=
  if num <=? vHight (model root) then 0
  else num - vHight (model root) + Header root - 1.

Definition HeaderLen (root : Root) : Z := Header root.

(** Fields are one byte wide and separated by one byte: field [n] is the
    byte [2n], and the empty span at the end of the line past the last one. *)
Definition rangePosition (line delimiter : string) (n : Z) : Z * Z :=
  if 2 * n <? strlen line then (2 * n, 2 * n + 1) else (strlen line, strlen line).

(** A pattern that matches nowhere. *)
Definition searchPosition (line : string) (re : Regexp) : list (Z * Z) := [].

Definition HeaderStyle : Style := Bold StyleDefault true.

Definition collab : Collab :=
  mkCollab strToContents layout bottomLineNum HeaderLen rangePosition searchPosition
    HeaderStyle (ColorRGB 236).

Definition emptyScreen : Screen := mkScreen [] None 0.

Definition noInput : Input := mkInput Normal EmptyString 0 None EmptyString.

(** A viewer of [w] columns and [h] body rows, the status line below them. *)
Definition viewer (lines : list string) (atEOF : bool) (anchor w h header : Z)
    (wrapMode columnMode : bool) : Root :=
  mkRoot (mkModel lines atEOF "sample.txt" anchor 0 0 w h) emptyScreen
    header 8 columnMode "," 1 wrapMode noInput false 0 0 false 0 h
    EmptyString false false.

(** One cell, not reversed, made by the two bytes offsets 0 and 1. *)
Definition oneCell : lineContents := layout "a" 8.

(** Three lines on a 10 x 4 viewport with two header rows. *)
Definition shortDoc : Root :=
  viewer ["a,b"; "c,d"; "e,f"]%string true 0 10 4 2 false true.

(** One line, and two header rows asked for. *)
Definition headerPastEnd : Root :=
  viewer ["a"]%string true 0 10 4 2 false false.

(** A document still being read, not yet any line in it. *)
Definition stillEmpty : Root :=
  viewer [] false 7 10 4 0 false false.

Definition cells25 : list content := strToContents "abcdefghijklmnopqrstuvwxy" 8.

End Sample.

(** * Properties *)

(** ** Integers that fit *)

Lemma wrap_id z : GoInt.is_int z -> GoInt.wrap z = z.
Proof.
  unfold GoInt.is_int, GoInt.wrap, GoInt.int_min, GoInt.int_max. intros H.
  rewrite Z.mod_small; lia.
Qed.

Lemma wrap_is_int z : GoInt.is_int (GoInt.wrap z).
Proof.
  unfold GoInt.is_int, GoInt.wrap, GoInt.int_min, GoInt.int_max.
  pose proof (Z.mod_pos_bound (z + 2 ^ 63) (2 ^ 64)). lia.
Qed.

Lemma wrap_add_l a b : GoInt.wrap (GoInt.wrap a + b) = GoInt.wrap (a + b).
Proof.
  unfold GoInt.wrap. f_equal.
  replace ((a + 2 ^ 63) mod 2 ^ 64 - 2 ^ 63 + b + 2 ^ 63)
    with ((a + 2 ^ 63) mod 2 ^ 64 + b) by lia.
  rewrite Zplus_mod_idemp_l. f_equal. lia.
Qed.

Lemma wrap_add_r a b : GoInt.wrap (a + GoInt.wrap b) = GoInt.wrap (a + b).
Proof. rewrite (Z.add_comm a), wrap_add_l. f_equal. lia. Qed.

Lemma add_id a b : GoInt.is_int (a + b) -> a +i b = a + b.
Proof. apply wrap_id. Qed.

(** ** Slices *)

Lemma index_nat {A} (l : list A) (i : nat) : index l (Z.of_nat i) = l !! i.
Proof.
  unfold index. destruct (Z.ltb_spec (Z.of_nat i) 0); [lia |].
  by rewrite Nat2Z.id.
Qed.

Lemma index_Some {A} (l : list A) (i : Z) (a : A) :
  index l i = Some a <-> 0 <= i /\ l !! Z.to_nat i = Some a.
Proof.
  unfold index. destruct (Z.ltb_spec i 0).
  - split; [done | lia].
  - split; [by split | by intros [_ ?]].
Qed.

Lemma index_None {A} (l : list A) (i : Z) :
  index l i = None <-> i < 0 \/ len l <= i.
Proof.
  unfold index, len. destruct (Z.ltb_spec i 0).
  - split; [by left | done].
  - rewrite lookup_ge_None. lia.
Qed.

Lemma index_in_range {A} (l : list A) (i : Z) :
  0 <= i < len l -> exists a, index l i = Some a.
Proof.
  intros H. destruct (index l i) eqn:Hi; [by eexists |].
  apply index_None in Hi. lia.
Qed.

(** ** reverseContents *)

Lemma reversed_idem c : reversed (reversed c) = reversed c.
Proof. by destruct c. Qed.

Lemma reversed_keeps c :
  mainc (reversed c) = mainc c /\ combc (reversed c) = combc c /\
  width (reversed c) = width c.
Proof. by destruct c. Qed.

(** What one run of the loop does to each cell: nothing outside
    [n, n + k), at most [reversed] inside, exactly [reversed] inside when the
    loop ran to its end. *)
Lemma reverseLoop_cells k : forall n cs,
  length (reverseLoop k n cs).1 = length cs /\
  forall (i : nat) c, cs !! i = Some c ->
    exists c', (reverseLoop k n cs).1 !! i = Some c' /\
      (c' = c \/ c' = reversed c) /\
      (~ (n <= Z.of_nat i < n + Z.of_nat k) -> c' = c) /\
      ((reverseLoop k n cs).2 = true -> n <= Z.of_nat i < n + Z.of_nat k ->
       c' = reversed c).
Proof.
  induction k as [| k IH]; intros n cs; simpl.
  - split; [done |]. intros i c Hc. exists c. repeat split; auto. lia.
  - destruct (index cs n) as [c0 |] eqn:Hn; simpl.
    + apply index_Some in Hn as [Hn0 Hn].
      destruct (IH (n + 1) (<[Z.to_nat n := reversed c0]> cs)) as [Hlen Hcells].
      fold (reversed c0). split; [by rewrite Hlen, length_insert |].
      intros i c Hc.
      destruct (decide (i = Z.to_nat n)) as [-> | Hne].
      * assert (c0 = c) as -> by congruence.
        destruct (Hcells (Z.to_nat n) (reversed c)) as (c' & Hc' & Hor & Hout & Hin).
        { apply list_lookup_insert_eq. by eapply lookup_lt_Some. }
        exists c'. split; [done |].
        assert (c' = reversed c) as ->.
        { destruct Hor as [-> | ->]; [done | apply reversed_idem]. }
        repeat split; auto. intros Hno. lia.
      * destruct (Hcells i c) as (c' & Hc' & Hor & Hout & Hin).
        { by rewrite list_lookup_insert_ne. }
        exists c'. split; [done |]. repeat split; auto.
        -- intros Hno. apply Hout. lia.
        -- intros Hok Hi. apply Hin; [done | lia].
    + split; [done |]. intros i c Hc. exists c. repeat split; auto. done.
Qed.

(** The loop runs to its end when its indices are indices of the slice. *)
Lemma reverseLoop_completes k : forall n cs,
  0 <= n -> n + Z.of_nat k <= len cs -> (reverseLoop k n cs).2 = true.
Proof.
  induction k as [| k IH]; intros n cs Hn Hk; simpl; [done |].
  destruct (index_in_range cs n) as [c Hc]; [lia |].
  rewrite Hc. apply IH; [lia |]. unfold len in *. rewrite length_insert. lia.
Qed.

Lemma reverseContents_unfold lc start end_ :
  reverseContents lc start end_ =
  (mkLineContents
     (reverseLoop (Z.to_nat (mapGet (byteMap lc) end_ - mapGet (byteMap lc) start))
        (mapGet (byteMap lc) start) (contents lc)).1 (byteMap lc),
   (reverseLoop (Z.to_nat (mapGet (byteMap lc) end_ - mapGet (byteMap lc) start))
        (mapGet (byteMap lc) start) (contents lc)).2).
Proof. unfold reverseContents. by destruct (reverseLoop _ _ _). Qed.

Lemma coversLine_get lc n i :
  coversLine lc n -> 0 <= i <= n -> 0 <= mapGet (byteMap lc) i <= len (contents lc).
Proof.
  intros (Hcov & _) Hi. destruct (Hcov i Hi) as (c & Hc & Hr).
  unfold mapGet. by rewrite Hc.
Qed.

(** A highlight of a byte range of the line runs to its end, and puts
    [reversed] on the cells of its span and on no other. *)
Lemma reverseContents_span lc n start end_ :
  coversLine lc n -> 0 <= start -> start <= end_ -> end_ <= n ->
  exists lc',
    reverseContents lc start end_ = (lc', true) /\
    byteMap lc' = byteMap lc /\
    contents lc' =
      imap (fun i c => if inSpan lc start end_ i then reversed c else c) (contents lc).
Proof.
  intros Hcov H0 Hse Hen.
  pose proof (coversLine_get lc n start Hcov ltac:(lia)) as Hs.
  pose proof (coversLine_get lc n end_ Hcov ltac:(lia)) as He.
  rewrite reverseContents_unfold.
  set (lo := mapGet (byteMap lc) start) in *.
  set (hi := mapGet (byteMap lc) end_) in *.
  destruct (reverseLoop_cells (Z.to_nat (hi - lo)) lo (contents lc)) as [Hlen Hcells].
  assert ((reverseLoop (Z.to_nat (hi - lo)) lo (contents lc)).2 = true) as Hok.
  { apply reverseLoop_completes; lia. }
  eexists. split; [by rewrite Hok |]. split; [done |]. simpl.
  apply list_eq. intros i. rewrite list_lookup_imap.
  destruct (contents lc !! i) as [c |] eqn:Hc; simpl.
  - destruct (Hcells i c Hc) as (c' & Hc' & _ & Hout & Hin).
    rewrite Hc'. f_equal. unfold inSpan. fold lo hi.
    destruct (Z.leb_spec lo (Z.of_nat i)), (Z.ltb_spec (Z.of_nat i) hi); simpl;
      try (apply Hout; lia).
    apply Hin; [done | lia].
  - apply lookup_ge_None. rewrite Hlen. by apply lookup_ge_None.
Qed.

Lemma coversLine_same lc lc' n :
  byteMap lc' = byteMap lc -> length (contents lc') = length (contents lc) ->
  coversLine lc n -> coversLine lc' n.
Proof.
  unfold coversLine, len. intros -> ->. done.
Qed.

(** C1, as amended: for every line contents [lc] of a line of [n] bytes and
    all byte offsets [0 <= start <= end_ <= n], reversing the range twice
    gives what reversing it once gives: both calls run to their end, and
    each cell of the span [byteMap[start], byteMap[end_]) ends with the
    reverse attribute set, every other cell with the style it had.  (The
    original style comes back only where it was reversed already.) *)
Theorem reverseContents_twice_is_once lc n start end_ :
  coversLine lc n -> 0 <= start -> start <= end_ -> end_ <= n ->
  exists lc',
    reverseContents lc start end_ = (lc', true) /\
    reverseContents lc' start end_ = (lc', true) /\
    contents lc' =
      imap (fun i c => if inSpan lc start end_ i then reversed c else c) (contents lc).
Proof.
  intros Hcov H0 Hse Hen.
  destruct (reverseContents_span lc n start end_) as (lc' & Hrun & Hbm & Hcs); try done.
  exists lc'. split; [done |]. split; [| done].
  assert (coversLine lc' n) as Hcov'.
  { eapply coversLine_same; [done | | done]. by rewrite Hcs, length_imap. }
  destruct (reverseContents_span lc' n start end_) as (lc2 & Hrun2 & Hbm2 & Hcs2); try done.
  rewrite Hrun2. f_equal. destruct lc2 as [cs2 bm2], lc' as [cs' bm']. simpl in *.
  subst bm2. f_equal. rewrite Hcs2, Hcs. apply list_eq. intros i.
  rewrite !list_lookup_imap. unfold inSpan. simpl. rewrite Hbm.
  destruct (contents lc !! i) as [c |]; simpl; [| done].
  destruct (_ && _); [| done]. by rewrite reversed_idem.
Qed.

Lemma reverseContents_twice_is_once_witness :
  exists lc',
    reverseContents Sample.oneCell 0 1 = (lc', true) /\
    reverseContents lc' 0 1 = (lc', true) /\
    contents lc' =
      imap (fun i c => if inSpan Sample.oneCell 0 1 i then reversed c else c)
        (contents Sample.oneCell).
Proof.
  apply (reverseContents_twice_is_once Sample.oneCell 1 0 1); try lia.
  split; [| split].
  - intros i Hi. assert (i = 0 \/ i = 1) as [-> | ->] by lia.
    + exists 0. split; [reflexivity | vm_compute; split; discriminate].
    + exists 1. split; [reflexivity | vm_compute; split; discriminate].
  - intros i j Hi Hj.
    assert ((i = 0 \/ i = 1) /\ (j = 0 \/ j = 1)) as [[-> | ->] [-> | ->]] by lia;
      vm_compute; try discriminate; lia.
  - reflexivity.
Defined.

(** C1 as stated fails: one cell that is not reversed, the whole line
    reversed twice; the cell stays reversed, its first style is not back. *)
Lemma reverseContents_twice_not_identity :
  coversLine Sample.oneCell 1 /\
  style <$> contents (reverseContents (reverseContents Sample.oneCell 0 1).1 0 1).1
    <> style <$> contents Sample.oneCell.
Proof.
  split.
  - split; [| split].
    + intros i Hi. assert (i = 0 \/ i = 1) as [-> | ->] by lia.
      * exists 0. split; [reflexivity | vm_compute; split; discriminate].
      * exists 1. split; [reflexivity | vm_compute; split; discriminate].
    + intros i j Hi Hj.
      assert ((i = 0 \/ i = 1) /\ (j = 0 \/ j = 1)) as [[-> | ->] [-> | ->]] by lia;
        vm_compute; try discriminate; lia.
    + reflexivity.
  - vm_compute. discriminate.
Qed.

(** C10: [reverseContents(lc, start, end_)] changes nothing but the style of
    cells with an index in [byteMap[start], byteMap[end_)): the byte map and
    the number of cells are the same, every cell keeps its rune, its
    combining runes and its width, and a cell outside the range is the cell
    it was.  This holds for the array as the call leaves it, also when the
    call stops at an index out of range. *)
Theorem reverseContents_frame lc start end_ :
  let lc' := (reverseContents lc start end_).1 in
  byteMap lc' = byteMap lc /\
  length (contents lc') = length (contents lc) /\
  forall (i : nat) c, contents lc !! i = Some c ->
    exists c', contents lc' !! i = Some c' /\
      mainc c' = mainc c /\ combc c' = combc c /\ width c' = width c /\
      (~ (mapGet (byteMap lc) start <= Z.of_nat i < mapGet (byteMap lc) end_) ->
       c' = c).
Proof.
  rewrite reverseContents_unfold. simpl.
  set (lo := mapGet (byteMap lc) start). set (hi := mapGet (byteMap lc) end_).
  destruct (reverseLoop_cells (Z.to_nat (hi - lo)) lo (contents lc)) as [Hlen Hcells].
  split; [done |]. split; [done |].
  intros i c Hc. destruct (Hcells i c Hc) as (c' & Hc' & Hor & Hout & _).
  exists c'. split; [done |].
  assert (mainc c' = mainc c /\ combc c' = combc c /\ width c' = width c) as (? & ? & ?).
  { destruct Hor as [-> | ->]; [done | apply reversed_keeps]. }
  repeat split; try done. intros Hno. apply Hout. lia.
Qed.

(** ** The anchor clamp *)

Lemma anchorClamp_lineNum E root :
  anchorClamp E root =
  setLineNum root (Z.max 0 (Z.min (lineNum (model root)) (bottomOf E root +i 1))).
Proof.
  unfold anchorClamp. set (b := bottomOf E root +i 1).
  destruct root as [m scr hd tw cm cd cn wm inp lm sx msx ar bp sp msg cs dbg].
  destruct m as [buf e fn a x0 y0 w h]. simpl.
  destruct (Z.ltb_spec b a) as [Hb | Hb]; simpl.
  - destruct (Z.ltb_spec b 0) as [H0 | H0]; unfold setLineNum, setModel, setLineNumM;
      simpl; repeat f_equal; lia.
  - destruct (Z.ltb_spec a 0) as [H0 | H0]; unfold setLineNum, setModel, setLineNumM;
      simpl; repeat f_equal; lia.
Qed.

Lemma Draw_model E fuel root root' :
  isEmpty root = false -> Draw E fuel root = Ok root' ->
  model root' = model (anchorClamp E (ResetScreen root)).
Proof.
  intros Hne. unfold Draw. rewrite Hne.
  destruct (headerLoop _ _ _ _ _ _ _) as [[[lX lY] scr] | |]; simpl; try done.
  destruct (bodyLoop _ _ _ _ _ _ _ _) as [[[lX' lY'] scr'] | |]; simpl; try done.
  intros [= <-]. by destruct (0 <? lY').
Qed.

(** C2, as amended: on a draw cycle with a document that is not empty and a
    viewport height that is not zero, the anchor line becomes
    [max 0 (min anchor (bottom + 1))], with
    [bottom = bottomLineNum(totalLines) - Header]: the cap at [bottom + 1]
    comes first and the floor at 0 last.  When [bottom + 1] is not negative
    the anchor is clamped into [[0, bottom + 1]] and an anchor already there
    is left as it is; when [bottom + 1] is negative the anchor becomes 0.
    The clamp itself always produces that anchor, and a draw cycle that
    comes to its end leaves it in the model. *)
Theorem Draw_anchor_clamp E fuel root root' :
  isEmpty root = false -> Draw E fuel root = Ok root' ->
  let r := ResetScreen root in
  let bottom1 := bottomOf E r +i 1 in
  let a := lineNum (model root) in
  lineNum (model (anchorClamp E r)) = Z.max 0 (Z.min a bottom1) /\
  lineNum (model root') = Z.max 0 (Z.min a bottom1) /\
  (0 <= bottom1 -> 0 <= lineNum (model root') <= bottom1) /\
  (0 <= a <= bottom1 -> lineNum (model root') = a) /\
  (bottom1 < 0 -> lineNum (model root') = 0).
Proof.
  intros Hne Hdraw r bottom1 a.
  assert (lineNum (model (anchorClamp E r)) = Z.max 0 (Z.min a bottom1)) as Hclamp.
  { rewrite anchorClamp_lineNum. reflexivity. }
  rewrite (Draw_model E fuel root root' Hne Hdraw). fold r. rewrite Hclamp.
  repeat split; lia.
Qed.

Lemma Draw_anchor_clamp_witness :
  exists root',
    Draw Sample.collab 20 (Sample.viewer ["a"; "b"; "c"; "d"; "e"; "f"]%string true 9 10 4 0 false false)
      = Ok root' /\
    lineNum (model root') = 2.
Proof.
  eexists. split; [vm_compute; reflexivity |].
  eapply proj1, proj2,
    (Draw_anchor_clamp Sample.collab 20
       (Sample.viewer ["a"; "b"; "c"; "d"; "e"; "f"]%string true 9 10 4 0 false false)).
  - reflexivity.
  - vm_compute. reflexivity.
Defined.

(** C2 as stated fails: three lines on four rows with two header rows give
    [bottom + 1 = -1]; the anchor 0 is above it, and the draw cycle leaves
    the anchor at 0, which is neither [bottom + 1] nor inside
    [[0, bottom + 1]]. *)
Lemma anchor_clamp_leaves_interval :
  isEmpty Sample.shortDoc = false /\
  bottomOf Sample.collab (ResetScreen Sample.shortDoc) +i 1 = -1 /\
  lineNum (model Sample.shortDoc) = 0 /\
  exists root',
    Draw Sample.collab 20 Sample.shortDoc = Ok root' /\
    lineNum (model root') = 0 /\
    lineNum (model root') <> bottomOf Sample.collab (ResetScreen Sample.shortDoc) +i 1 /\
    ~ (0 <= lineNum (model root')
         <= bottomOf Sample.collab (ResetScreen Sample.shortDoc) +i 1).
Proof.
  split; [reflexivity |]. split; [reflexivity |]. split; [reflexivity |].
  eexists. split; [vm_compute; reflexivity |].
  split; [reflexivity |]. split; [vm_compute; discriminate |].
  vm_compute. intros [_ H]. by apply H.
Qed.

(** ** Wrap drawing *)

(** C3: a logical line of 25 cells of width 1, a viewport 10 columns wide,
    no gutter ([startX = 0]).  Three calls of [wrapContents], each on the
    horizontal offset the one before returned, draw three screen rows of
    10, 10 and 5 cells: the first two return the offsets 10 and 20 and leave
    [lY] as it is, the third returns the offset 0 and [lY + 1]. *)
Theorem wrapContents_25_in_10 root cs fuel y1 y2 y3 lY scr :
  vWidth (model root) = 10 -> startX root = 0 ->
  length cs = 25%nat -> Forall (fun c => width c = 1) cs ->
  (11 <= fuel)%nat ->
  let row1 := take 10 cs in
  let row2 := take 10 (drop 10 cs) in
  let row3 := drop 20 cs in
  let scr1 := setContentString 0 y1 row1 scr in
  let scr2 := setContentString 0 y2 row2 scr1 in
  let scr3 := setContentString 0 y3 row3 scr2 in
  (length row1 = 10 /\ length row2 = 10 /\ length row3 = 5)%nat /\
  wrapContents fuel root y1 0 lY cs scr = Ok (10, lY, scr1) /\
  wrapContents fuel root y2 10 lY cs scr1 = Ok (20, lY, scr2) /\
  wrapContents fuel root y3 20 lY cs scr2 = Ok (0, lY +i 1, scr3).
Proof.
  intros Hw Hsx Hlen Hwidth Hfuel.
  destruct root as [m scr0 hd tw cm cd cn wm inp lm sx msx ar bp sp msg csn dbg].
  destruct m as [buf e fn a x0 y0 w h]. simpl in Hw, Hsx. subst w sx.
  do 25 (destruct cs as [| [? ? ? ?] cs]; [discriminate |]).
  destruct cs; [| discriminate].
  repeat match goal with
         | H : Forall _ (_ :: _) |- _ => apply Forall_cons in H as [? H]
         end.
  simpl in *. subst.
  do 11 (destruct fuel as [| fuel]; [lia |]).
  repeat split.
Qed.

Lemma wrapContents_25_in_10_witness :
  let root := Sample.viewer [] true 0 10 4 0 true false in
  let cs := Sample.cells25 in
  let scr := Sample.emptyScreen in
  let scr1 := setContentString 0 0 (take 10 cs) scr in
  let scr2 := setContentString 0 1 (take 10 (drop 10 cs)) scr1 in
  wrapContents 30 root 0 0 5 cs scr = Ok (10, 5, scr1) /\
  wrapContents 30 root 1 10 5 cs scr1 = Ok (20, 5, scr2) /\
  wrapContents 30 root 2 20 5 cs scr2
    = Ok (0, 6, setContentString 0 2 (drop 20 cs) scr2).
Proof.
  intros root cs scr scr1 scr2.
  apply (wrapContents_25_in_10 root cs 30 0 1 2 5 scr).
  - reflexivity.
  - reflexivity.
  - reflexivity.
  - vm_compute. repeat constructor.
  - lia.
Defined.

(** ** No-wrap drawing *)

Lemma putAll_nil scr : putAll [] scr = scr.
Proof. by destruct scr. Qed.

Lemma putAll_cons w ws scr :
  putAll (w :: ws) scr =
  putAll ws (SetContent scr (wx w) (wy w) (wmainc w) (wcombc w) (wstyle w)).
Proof.
  unfold putAll, SetContent. destruct w. simpl. f_equal.
  by rewrite <- app_assoc.
Qed.

Lemma omap_all_None {A B} (f : A -> option B) (l : list A) :
  Forall (fun a => f a = None) l -> omap f l = [].
Proof.
  induction 1 as [| a l Ha _ IH]; simpl; [done |]. by rewrite Ha.
Qed.

Lemma clip_past_end root y lX cs k n :
  len cs <= lX + k -> omap (clipCell root y lX cs) (seqZ k n) = [].
Proof.
  intros Hk. apply omap_all_None, Forall_forall. intros j Hj.
  apply elem_of_seqZ in Hj. unfold clipCell.
  assert (index cs (lX + j) = None) as ->; [| done].
  apply index_None. lia.
Qed.

(** The loop from its [k]-th pass on: [x] is [k], the column [k + startX]
    and the cell index [lX + k] are computed without overflow. *)
Lemma noWrapLoop_clip root y lX cs : forall n k fuel scr,
  GoInt.is_int (startX root) -> GoInt.is_int (vWidth (model root)) ->
  GoInt.is_int (lX + k) -> len cs <= GoInt.int_max ->
  0 <= k -> (k = 0 \/ k + startX root <= vWidth (model root)) ->
  n = Z.to_nat (vWidth (model root) - startX root - k) ->
  (n < fuel)%nat ->
  noWrapLoop fuel root y lX cs (GoInt.wrap k) scr =
  Ok (putAll (omap (clipCell root y lX cs)
                (seqZ k (vWidth (model root) - startX root - k))) scr).
Proof.
  induction n as [| n IH]; intros k fuel scr Hsx Hvw HlX Hlen Hk0 Hk Hn Hfuel;
    (destruct fuel as [| fuel]; [lia |]); simpl;
    unfold GoInt.add; rewrite !wrap_add_l;
    (assert (GoInt.wrap (k + startX root) = k + startX root) as ->;
     [apply wrap_id; unfold GoInt.is_int in *; lia |]).
  - destruct (Z.ltb_spec (k + startX root) (vWidth (model root))); [lia |].
    rewrite seqZ_nil by lia. by rewrite putAll_nil.
  - destruct (Z.ltb_spec (k + startX root) (vWidth (model root))); [| lia].
    rewrite wrap_add_r, (wrap_id (lX + k)) by done.
    rewrite seqZ_cons by lia. simpl.
    replace (Z.pred (vWidth (model root) - startX root - k))
      with (vWidth (model root) - startX root - Z.succ k) by lia.
    replace (k + 1) with (Z.succ k) by lia.
    destruct (Z.ltb_spec (lX + k) 0) as [Hneg | Hpos].
    + unfold clipCell at 1.
      assert (index cs (lX + k) = None) as -> by (apply index_None; lia). simpl.
      apply IH; try done;
        unfold GoInt.is_int, GoInt.int_min, GoInt.int_max in *; lia.
    + destruct (Z.leb_spec (len cs) (lX + k)) as [Hend | Hin].
      * unfold clipCell at 1.
        assert (index cs (lX + k) = None) as -> by (apply index_None; lia). simpl.
        rewrite clip_past_end by lia. by rewrite putAll_nil.
      * destruct (index_in_range cs (lX + k)) as [c Hc]; [lia |].
        unfold clipCell at 1. rewrite Hc. simpl. rewrite putAll_cons. simpl.
        apply IH; try done; unfold GoInt.is_int in *; lia.
Qed.

(** A run of [noWrapContents] with fuel for every column of the viewport. *)
Lemma noWrapContents_run root fuel y lX lY cs scr :
  GoInt.is_int (startX root) -> GoInt.is_int (vWidth (model root)) ->
  GoInt.is_int lX -> GoInt.is_int (minStartX root) ->
  len cs <= GoInt.int_max ->
  (Z.to_nat (vWidth (model root) - startX root) < fuel)%nat ->
  noWrapContents fuel root y lX lY cs scr =
  Ok (Z.max lX (minStartX root), lY +i 1,
      putAll (clipRow root y (Z.max lX (minStartX root)) cs) scr).
Proof.
  intros Hsx Hvw HlX Hmin Hlen Hfuel. unfold noWrapContents.
  set (lX' := Z.max lX (minStartX root)).
  assert ((if lX <? minStartX root then minStartX root else lX) = lX') as ->.
  { unfold lX'. destruct (Z.ltb_spec lX (minStartX root)); lia. }
  change 0 with (GoInt.wrap 0) at 1.
  rewrite (noWrapLoop_clip root y lX' cs
             (Z.to_nat (vWidth (model root) - startX root)) 0 fuel scr);
    try done.
  - simpl. unfold clipRow. by rewrite Z.sub_0_r.
  - rewrite Z.add_0_r. unfold lX', GoInt.is_int in *. lia.
  - by left.
  - f_equal. lia.
Qed.

(** C5: no-wrap drawing of a row puts a cell on no screen column outside
    [[startX, vWidth)].  The window starts at [max lX minStartX], which is
    the offset returned; the column [startX + k] shows the cell of index
    [max lX minStartX + k]; offsets before the first cell are skipped, and
    the row ends with the cells or with the viewport.  The logical line
    advances by one. *)
Theorem noWrapContents_clips root fuel y lX lY cs scr :
  GoInt.is_int (startX root) -> GoInt.is_int (vWidth (model root)) ->
  GoInt.is_int lX -> GoInt.is_int (minStartX root) ->
  len cs <= GoInt.int_max ->
  (Z.to_nat (vWidth (model root) - startX root) < fuel)%nat ->
  let lX' := Z.max lX (minStartX root) in
  let ws := clipRow root y lX' cs in
  noWrapContents fuel root y lX lY cs scr = Ok (lX', lY +i 1, putAll ws scr) /\
  Forall (fun w => startX root <= wx w < vWidth (model root) /\ wy w = y) ws /\
  forall w, w ∈ ws <->
    exists k c, 0 <= k < vWidth (model root) - startX root /\
      index cs (lX' + k) = Some c /\
      w = mkWrite (startX root + k) y (mainc c) (combc c) (style c).
Proof.
  intros Hsx Hvw HlX Hmin Hlen Hfuel lX' ws.
  assert (forall w, w ∈ ws <->
    exists k c, 0 <= k < vWidth (model root) - startX root /\
      index cs (lX' + k) = Some c /\
      w = mkWrite (startX root + k) y (mainc c) (combc c) (style c)) as Hws.
  { intros w. unfold ws, clipRow. rewrite list_elem_of_omap. split.
    - intros (k & Hk & Hw). apply elem_of_seqZ in Hk. unfold clipCell in Hw.
      destruct (index cs (lX' + k)) as [c |] eqn:Hc; simpl in Hw; [| done].
      exists k, c. split; [lia |]. split; [done |].
      injection Hw as <-. f_equal. lia.
    - intros (k & c & Hk & Hc & ->). exists k. split; [apply elem_of_seqZ; lia |].
      unfold clipCell. rewrite Hc. simpl. do 2 f_equal. lia. }
  split; [| split; [| done]].
  - by apply noWrapContents_run.
  - apply Forall_forall. intros w Hw. apply Hws in Hw as (k & c & Hk & _ & ->).
    simpl. lia.
Qed.

Lemma noWrapContents_clips_witness :
  let root := Sample.viewer [] true 0 10 4 0 false false in
  noWrapContents 11 root 2 20 0 Sample.cells25 Sample.emptyScreen
    = Ok (20, 1, putAll (clipRow root 2 20 Sample.cells25) Sample.emptyScreen) /\
  Forall (fun w => 0 <= wx w < 10 /\ wy w = 2) (clipRow root 2 20 Sample.cells25).
Proof.
  intros root.
  pose proof (noWrapContents_clips root 11 2 20 0 Sample.cells25 Sample.emptyScreen)
    as H.
  simpl in H. unfold GoInt.is_int in H.
  destruct H as (H1 & H2 & _); try (vm_compute; split; discriminate).
  - vm_compute. discriminate.
  - simpl. lia.
  - split; [exact H1 | exact H2].
Defined.

(** ** The status line *)











(** ** The header loop when a header line cannot be fetched *)

(** Once [lineToContents(lY)] fails with [lY < Header], every pass takes the
    [continue]: [hy] goes up, [lY] stays, and no amount of fuel ends the loop. *)
Lemma headerLoop_spin E root lX lY scr :
  lY < Header root ->
  lineToContents E (model root) lY (TabWidth root) = None ->
  forall fuel hy, headerLoop E fuel root hy lX lY scr = Timeout.
Proof.
  intros Hlt Hnone. induction fuel as [| fuel IH]; intros hy; simpl; [done |].
  destruct (Z.ltb_spec lY (Header root)); [| lia].
  rewrite Hnone. apply IH.
Qed.

Lemma wrapLoop_lY root y lX lY cs : forall fuel x scr lX' lY' scr',
  wrapLoop fuel root y lX lY cs x scr = Ok (lX', lY', scr') ->
  lY' = lY \/ lY' = lY +i 1.
Proof.
  induction fuel as [| fuel IH]; intros x scr lX' lY' scr'; simpl; [done |].
  destruct (len cs <=? lX +i x); [intros [= _ <- _]; by right |].
  destruct (index cs (lX +i x)) as [c |]; [| done].
  destruct (vWidth (model root) <? x +i width c +i startX root).
  - intros [= _ <- _]. by left.
  - apply IH.
Qed.

Lemma noWrapContents_lY root fuel y lX lY cs scr lX' lY' scr' :
  noWrapContents fuel root y lX lY cs scr = Ok (lX', lY', scr') -> lY' = lY +i 1.
Proof.
  unfold noWrapContents. destruct (noWrapLoop _ _ _ _ _ _ _); simpl; try done.
  by intros [= _ <- _].
Qed.

(** The header loop cannot get past a line that is not there. *)
Lemma headerLoop_past_end E root :
  BufEndNum (model root) < Header root ->
  BufEndNum (model root) <= GoInt.int_max ->
  forall fuel hy lX lY scr r,
    0 <= lY <= BufEndNum (model root) ->
    headerLoop E fuel root hy lX lY scr <> Ok r.
Proof.
  intros Hhd Hint. induction fuel as [| fuel IH]; intros hy lX lY scr r HlY; simpl;
    [done |].
  destruct (Z.ltb_spec lY (Header root)); [| lia].
  destruct (lineToContents E (model root) lY (TabWidth root)) as [lc |] eqn:Hlc.
  - assert (lY < BufEndNum (model root)) as Hin.
    { unfold lineToContents in Hlc.
      destruct (index (buffer (model root)) lY) eqn:Hi; [| done].
      apply index_Some in Hi as [_ Hi]. apply lookup_lt_Some in Hi.
      unfold BufEndNum, len. lia. }
    destruct (columnHighlight E root _ _) as [lc' | |]; simpl; try done.
    assert (lY +i 1 = lY + 1) as Hnext.
    { apply add_id. unfold GoInt.is_int, GoInt.int_min, GoInt.int_max in *. lia. }
    destruct (WrapMode root).
    + destruct (wrapContents fuel root hy lX lY (contents lc') scr)
        as [[[lX' lY'] scr'] | |] eqn:Hw; simpl; try done.
      apply wrapLoop_lY in Hw. apply IH. lia.
    + destruct (noWrapContents fuel root hy (mx (model root)) lY (contents lc') scr)
        as [[[lX' lY'] scr'] | |] eqn:Hw; simpl; try done.
      apply noWrapContents_lY in Hw. apply IH. lia.
  - apply IH. lia.
Qed.

(** With more header rows asked for than the document has lines, and the
    document not empty, no draw cycle comes to its end. *)
Lemma Draw_header_past_end E fuel root r :
  isEmpty root = false ->
  BufEndNum (model root) < Header root ->
  BufEndNum (model root) <= GoInt.int_max ->
  Draw E fuel root <> Ok r.
Proof.
  intros Hne Hhd Hint. unfold Draw. rewrite Hne.
  destruct (headerLoop _ _ _ _ _ _ _) as [[[lX lY] scr] | |] eqn:Hh; simpl; try done.
  exfalso. revert Hh. rewrite anchorClamp_lineNum.
  apply headerLoop_past_end; simpl; try done.
  unfold BufEndNum, len. lia.
Qed.

(** C9, the code at the failing input: one line in the document, two header
    rows asked for, no-wrap mode.  The first header row is drawn, then
    [lineToContents(1)] fails on every pass of the header loop; whatever the
    fuel, [Draw] does not come to an end. *)
Theorem Draw_header_past_end_spins :
  isEmpty Sample.headerPastEnd = false /\
  BufEndNum (model Sample.headerPastEnd) < Header Sample.headerPastEnd /\
  forall fuel, Draw Sample.collab fuel Sample.headerPastEnd = Timeout.
Proof.
  split; [reflexivity |]. split; [reflexivity |].
  intros fuel. unfold Draw.
  change (isEmpty Sample.headerPastEnd) with false. cbv iota.
  rewrite anchorClamp_lineNum.
  set (root := setLineNum _ _).
  assert (forall f hy lX scr, headerLoop Sample.collab f root hy lX 1 scr = Timeout)
    as Hspin.
  { intros. apply headerLoop_spin; reflexivity. }
  destruct fuel as [| [| [| fuel]]]; try reflexivity.
  cbn [headerLoop].
  change (0 <? Header root) with true. cbv iota.
  change (lineToContents Sample.collab (model root) 0 (TabWidth root))
    with (Some (Sample.layout "a" 8)).
  cbv iota.
  change (columnHighlight Sample.collab root (GetLine (model root) 0)
            {| contents := headerStyle Sample.collab (contents (Sample.layout "a" 8));
               byteMap := byteMap (Sample.layout "a" 8) |})
    with (Ok {| contents := headerStyle Sample.collab (contents (Sample.layout "a" 8));
                byteMap := byteMap (Sample.layout "a" 8) |}).
  change (WrapMode root) with false.
  simpl mbind.
  change (0 +i 1) with 1.
  rewrite Hspin. reflexivity.
Qed.

(** ** Reading the screen back *)

Lemma GetContent_SetContent scr a b m c st x y :
  GetContent (SetContent scr a b m c st) x y =
  if (a =? x) && (b =? y) then (if m <? 32 then 32 else m, c, st)
  else GetContent scr x y.
Proof.
  unfold GetContent, SetContent. simpl. unfold atCell at 1. simpl.
  by destruct ((a =? x) && (b =? y)).
Qed.

Lemma GetContent_blank_row k y : forall x0 scr x y',
  GetContent
    (forRange k x0 (fun x scr => SetContent scr x y 32 [] (tcell.Normal StyleDefault)) scr)
    x y' =
  if (y =? y') && (x0 <=? x) && (x <? x0 + Z.of_nat k)
  then (32, [], tcell.Normal StyleDefault)
  else GetContent scr x y'.
Proof.
  induction k as [| k IH]; intros x0 scr x y'; simpl forRange.
  - destruct (y =? y'), (Z.leb_spec x0 x), (Z.ltb_spec x (x0 + Z.of_nat 0)); simpl;
      try done; lia.
  - rewrite IH, GetContent_SetContent.
    destruct (Z.eqb_spec y y'), (Z.eqb_spec x0 x), (Z.leb_spec (x0 + 1) x),
      (Z.leb_spec x0 x), (Z.ltb_spec x (x0 + 1 + Z.of_nat k)),
      (Z.ltb_spec x (x0 + Z.of_nat (S k))); simpl; try done; lia.
Qed.

Lemma GetContent_blank_rows w k : forall y0 scr x y,
  GetContent
    (forRange k y0 (fun y scr =>
       forUp 0 w (fun x scr => SetContent scr x y 32 [] (tcell.Normal StyleDefault)) scr)
       scr) x y =
  if (y0 <=? y) && (y <? y0 + Z.of_nat k) && (0 <=? x) && (x <? w)
  then (32, [], tcell.Normal StyleDefault)
  else GetContent scr x y.
Proof.
  induction k as [| k IH]; intros y0 scr x y; simpl forRange.
  - destruct (Z.leb_spec y0 y), (Z.ltb_spec y (y0 + Z.of_nat 0)); simpl; try done; lia.
  - rewrite IH. unfold forUp. rewrite GetContent_blank_row.
    destruct (Z.eqb_spec y0 y), (Z.leb_spec (y0 + 1) y), (Z.leb_spec y0 y),
      (Z.ltb_spec y (y0 + 1 + Z.of_nat k)), (Z.ltb_spec y (y0 + Z.of_nat (S k))),
      (Z.leb_spec 0 x), (Z.ltb_spec x w),
      (Z.ltb_spec x (0 + Z.of_nat (Z.to_nat (w - 0)))); simpl; try done; lia.
Qed.

(** After [ResetScreen] every cell of the viewport reads as the blank. *)
Lemma ResetScreen_blank root x y :
  0 <= x < vWidth (model root) -> 0 <= y < vHight (model root) ->
  GetContent (screen (ResetScreen root)) x y = (32, [], tcell.Normal StyleDefault).
Proof.
  intros Hx Hy. unfold ResetScreen. simpl. unfold forUp at 1.
  rewrite GetContent_blank_rows.
  destruct (Z.leb_spec 0 y), (Z.ltb_spec y (0 + Z.of_nat (Z.to_nat (vHight (model root) - 0)))),
    (Z.leb_spec 0 x), (Z.ltb_spec x (vWidth (model root))); simpl; try done; lia.
Qed.

(** ** Body rows past the end of the document *)

Lemma lineToContents_past_end E m n tw :
  BufEndNum m <= n -> lineToContents E m n tw = None.
Proof.
  intros Hn. unfold lineToContents.
  assert (index (buffer m) n = None) as ->; [| done].
  apply index_None. by right.
Qed.

(** C6: when the logical line of a body row is at or past the line count,
    fetching its contents fails and the row is not an error of the draw
    cycle: the pass writes one ['~'] in gray at column 0 of the row and
    nothing else, so every other cell of the row is what it was (the blank
    of [ResetScreen], when the row was untouched since), and the loop goes
    on with the next row, with the same offsets; all the rows that remain
    get their marker the same way. *)
Theorem bodyRow_eof_marker E fuel root y lX lY scr :
  BufEndNum (model root) <= lineNum (model root) +i lY ->
  bodyRow E fuel root y lX lY scr = Ok (lX, lY, eofMark y scr) /\
  cells (eofMark y scr)
    = mkWrite 0 y 126 [] (Foreground StyleDefault ColorGray) :: cells scr /\
  GetContent (eofMark y scr) 0 y = (126, [], Foreground StyleDefault ColorGray) /\
  (forall x, x <> 0 -> GetContent (eofMark y scr) x y = GetContent scr x y) /\
  (forall r x, 0 < x < vWidth (model r) -> 0 <= y < vHight (model r) ->
     GetContent (eofMark y (screen (ResetScreen r))) x y
       = (32, [], tcell.Normal StyleDefault)) /\
  forall k,
    bodyLoop E fuel root (S k) y lX lY scr
      = bodyLoop E fuel root k (y + 1) lX lY (eofMark y scr) /\
    bodyLoop E fuel root k y lX lY scr = Ok (lX, lY, forRange k y eofMark scr).
Proof.
  intros Hpast.
  pose proof (lineToContents_past_end E (model root) _ (TabWidth root) Hpast) as Hnone.
  assert (forall y scr, bodyRow E fuel root y lX lY scr = Ok (lX, lY, eofMark y scr))
    as Hrow.
  { intros. unfold bodyRow. by rewrite Hnone. }
  assert (forall x, x <> 0 -> forall s, GetContent (eofMark y s) x y = GetContent s x y)
    as Hrest.
  { intros x Hx s. unfold eofMark. rewrite GetContent_SetContent.
    destruct (Z.eqb_spec 0 x); [lia | done]. }
  split; [apply Hrow |]. split; [done |]. split.
  { unfold eofMark. rewrite GetContent_SetContent. by rewrite !Z.eqb_refl. }
  split; [intros x Hx; by apply Hrest |]. split.
  { intros r x Hx Hy. rewrite Hrest by lia. apply ResetScreen_blank; lia. }
  intros k. split.
  - simpl. by rewrite Hrow.
  - clear Hrest. revert y scr. induction k as [| k IH]; intros y scr; simpl; [done |].
    rewrite Hrow. simpl. apply IH.
Qed.

Lemma bodyRow_eof_marker_witness :
  let root := Sample.viewer ["a"; "b"]%string true 0 10 4 0 false false in
  bodyRow Sample.collab 20 root 2 0 2 (screen (ResetScreen root))
    = Ok (0, 2, eofMark 2 (screen (ResetScreen root))) /\
  GetContent (eofMark 2 (screen (ResetScreen root))) 0 2
    = (126, [], Foreground StyleDefault ColorGray) /\
  GetContent (eofMark 2 (screen (ResetScreen root))) 5 2
    = (32, [], tcell.Normal StyleDefault).
Proof.
  intros root.
  destruct (bodyRow_eof_marker Sample.collab 20 root 2 0 2 (screen (ResetScreen root)))
    as (H1 & _ & H2 & _ & H3 & _).
  - vm_compute. discriminate.
  - split; [exact H1 |]. split; [exact H2 |].
    apply (H3 root 5); simpl; lia.
Defined.

(** ** Header rows *)














Lemma reverseContents_frame_witness :
  byteMap (reverseContents Sample.oneCell 0 1).1 = byteMap Sample.oneCell /\
  length (contents (reverseContents Sample.oneCell 0 1).1)
    = length (contents Sample.oneCell).
Proof.
  destruct (reverseContents_frame Sample.oneCell 0 1) as (H1 & H2 & _).
  split; [exact H1 | exact H2].
Defined.

(** ** The code on the sample documents *)

Example rightStatus_reading :
  rightStatus (setLineNum Sample.stillEmpty 0) = "(0/0...)"%string.
Proof. reflexivity. Qed.

Example rightStatus_at_eof : rightStatus Sample.shortDoc = "(0/3)"%string.
Proof. reflexivity. Qed.

Example reverse_once_sets :
  reverse <$> (style <$> contents (reverseContents Sample.oneCell 0 1).1) = [true].
Proof. reflexivity. Qed.

Example reverse_twice_sets :
  reverse <$> (style <$> contents
     (reverseContents (reverseContents Sample.oneCell 0 1).1 0 1).1) = [true].
Proof. reflexivity. Qed.

Example header_styles_of_shortDoc :
  match headerLoop Sample.collab 20 Sample.shortDoc 0 0 0 Sample.emptyScreen with
  | Ok (_, _, scr) =>
      (fun w => (wx w, wy w, reverse (wstyle w), bold (wstyle w))) <$> rev (cells scr)
      = [(0, 0, false, true); (1, 0, false, true); (2, 0, true, true);
         (0, 1, false, true); (1, 1, false, true); (2, 1, true, true)]
  | _ => False
  end.
Proof. reflexivity. Qed.

Example Sprintf_gutter : Sprintf "%*d" [IntArg 4; IntArg 12] = "  12"%string.
Proof. reflexivity. Qed.
